(** * Document generation subsystem of parcial-sysacad

    A shallow embedding of
    - [app/services/documentos_office_service_refactored.py]: the three
      document generators, the generator factory and its registry, the
      module initialisation and the legacy lookup function;
    - [app/services/alumno_service.py]: the assembly of the rendering
      context of a student and the certificate entry point.

    Python text is modelled as [string] (a sequence of bytes holding UTF-8),
    Python [dict]s whose key order is observable as insertion-ordered
    association lists, the files on disk as a [gmap] from paths to contents,
    and code that raises or touches the disk as a small reader/state/error
    monad. *)

From Stdlib Require Import String Ascii List ZArith Lia DecimalString.
From stdpp Require Import base option gmap strings list.

Local Open Scope string_scope.

(** ** Python exceptions and results *)

(** The exception classes that the two modules raise, catch, or receive from
    the libraries they call.  [LibraryError] stands for any exception whose
    class belongs to a third-party library (Jinja2, docxtpl, WeasyPrint,
    SQLAlchemy, ...); it carries the class name. *)
Inductive exn_class : Type :=
  | AttributeError
  | RuntimeError
  | ValueError
  | ImportError
  | ModuleNotFoundError
  | OSError
  | FileNotFoundError
  | LibraryError (name : string).

Record exn : Type := Raise { exn_cls : exn_class; exn_msg : string }.

(** [issubclass c parent] for the classes above: [ModuleNotFoundError]
    derives from [ImportError], [FileNotFoundError] from [OSError]. *)
Definition is_ImportError (c : exn_class) : bool :=
  match c with
  | ImportError | ModuleNotFoundError => true
  | _ => false
  end.

Definition is_OSError (c : exn_class) : bool :=
  match c with
  | OSError | FileNotFoundError => true
  | _ => false
  end.

Inductive result (A : Type) : Type :=
  | Ok (a : A)
  | Err (e : exn).
Arguments Ok {A} a.
Arguments Err {A} e.

Definition is_Ok {A} (r : result A) : bool :=
  match r with Ok _ => true | Err _ => false end.

Definition result_bind {A B} (r : result A) (k : A -> result B) : result B :=
  match r with
  | Ok a => k a
  | Err e => Err e
  end.

(** ** Python strings *)

(** [str.lower] on one character.  Only the ASCII capitals are mapped; bytes
    of multi-byte UTF-8 sequences are left alone, so the function agrees
    with Python on ASCII text, which is what format identifiers are. *)
Definition lower_ascii (c : ascii) : ascii :=
  let n := nat_of_ascii c in
  if (65 <=? n)%nat && (n <=? 90)%nat then ascii_of_nat (n + 32) else c.

Fixpoint lower (s : string) : string :=
  match s with
  | EmptyString => EmptyString
  | String c s' => String (lower_ascii c) (lower s')
  end.

(** [sep.join(parts)]. *)
Fixpoint str_join (sep : string) (parts : list string) : string :=
  match parts with
  | [] => ""
  | [p] => p
  | p :: ps => p +:+ sep +:+ str_join sep ps
  end.

(** [s.startswith('/')] and [s.endswith('/')]. *)
Definition startswith_sep (s : string) : bool :=
  match s with
  | String "/" _ => true
  | _ => false
  end.

Fixpoint endswith_sep (s : string) : bool :=
  match s with
  | EmptyString => false
  | String c EmptyString => Ascii.eqb c "/"
  | String _ s' => endswith_sep s'
  end.

(** [os.path.join(a, *p)] of [posixpath]: a component that starts with the
    separator restarts the path; otherwise the component is appended, with
    a separator unless the path so far is empty or already ends in one. *)
Definition path_join_step (path b : string) : string :=
  if startswith_sep b then b
  else if orb (String.eqb path "") (endswith_sep path) then path +:+ b
  else path +:+ "/" +:+ b.

Definition os_path_join (a : string) (p : list string) : string :=
  fold_left path_join_step p a.

(** ** Python dictionaries

    A [dict] keeps its keys in insertion order, and assigning to a key that
    is present keeps the key's position.  The order is observable here
    (the error message of [create], the list of available formats). *)
Definition dict (V : Type) : Type := list (string * V).

Fixpoint dict_get {V} (d : dict V) (k : string) : option V :=
  match d with
  | [] => None
  | (k', v) :: d' => if String.eqb k' k then Some v else dict_get d' k
  end.

Fixpoint dict_set {V} (d : dict V) (k : string) (v : V) : dict V :=
  match d with
  | [] => [(k, v)]
  | (k', v') :: d' =>
      if String.eqb k' k then (k', v) :: d' else (k', v') :: dict_set d' k v
  end.

Definition dict_keys {V} (d : dict V) : list string := map fst d.

(** ** Entities ([app.models]) *)

(** Modelled from the spec: the entity classes of [app.models], which the
    services import and whose declarations are not among the sources.  The
    chain is student, specialty, faculty, university, and each parent
    relationship may be null.  Only the attributes that the context assembly
    reads are kept, with a name to tell entities apart. *)
Record Universidad : Type := { universidad_nombre : string }.

Record Facultad : Type :=
  { facultad_nombre : string;
    facultad_universidad : option Universidad }.

Record Especialidad : Type :=
  { especialidad_nombre : string;
    especialidad_facultad : option Facultad }.

Record Alumno : Type :=
  { alumno_nombre : string;
    alumno_apellido : string;
    alumno_especialidad : option Especialidad }.

(** The values that end up in a rendering context. *)
Inductive pyvalue : Type :=
  | PyNone
  | PyStr (s : string)
  | PyAlumno (a : Alumno)
  | PyEspecialidad (e : Especialidad)
  | PyFacultad (f : Facultad)
  | PyUniversidad (u : Universidad).

Definition context : Type := dict pyvalue.

(** ** The world a generator runs in *)

Definition bytes : Type := list Byte.byte.

(** [io.BytesIO]: a buffer and a stream position. *)
Record BytesIO : Type := { getvalue : bytes; tell : nat }.

(** The date part of a [datetime.datetime]. *)
Record datetime : Type := { year : nat; month : nat; day : nat }.

(** What lies outside the two modules: the Flask application, the template
    engines and the operating system's choice of temporary names.  Each
    field gives the outcome of one call, a value or a raised exception.
    Calls are made inside an application context, where
    [current_app.root_path] is available. *)
Record env : Type :=
  { (* current_app.root_path *)
    root_path : string;
    (* url_for(endpoint, filename=..., _external=...) *)
    url_for : string -> string -> bool -> result string;
    (* flask.render_template(name, context=...) *)
    render_template : string -> context -> result string;
    (* weasyprint.HTML(string=..., base_url=...).write_pdf() *)
    write_pdf : string -> string -> result bytes;
    (* ODTTemplate(path).__enter__(): the unpacked template *)
    ODTTemplate : string -> result bytes;
    (* get_odt_renderer(media_path=...).render(template, context=...) *)
    odt_render : string -> bytes -> context -> result bytes;
    (* template.pack(...): the bytes of the packed container *)
    odt_pack : bytes -> result bytes;
    (* what a pack that raises had written to its output file by then,
       if it had started on the file at all *)
    odt_pack_partial : bytes -> option bytes;
    (* doc.render(...), first step: the package loaded from the path that
       DocxTemplate(path) was given; the constructor itself opens nothing *)
    docx_open : string -> result bytes;
    (* doc.render(context, jinja_env), the substitution proper *)
    docx_render : bytes -> context -> result bytes;
    (* doc.save(...): the bytes of the saved package *)
    docx_save : bytes -> result bytes;
    (* what a save that raises had written to its output file by then,
       if it had started on the file at all *)
    docx_save_partial : bytes -> option bytes;
    (* the name picked by tempfile.NamedTemporaryFile(suffix=...) *)
    NamedTemporaryFile : gmap string bytes -> string -> result string;
    (* datetime.datetime.now() *)
    now : datetime;
    (* the full name of a month in the process's LC_TIME locale *)
    month_name : nat -> string;
    (* AlumnoRepository.buscar_por_id(id) *)
    buscar_por_id : Z -> result (option Alumno) }.

(** File-related effects, recorded in the order they happen. *)
Inductive event : Type :=
  | TemplateLookup (path : string)
  | FileCreated (path : string)
  | FileWritten (path : string)
  | FileRead (path : string)
  | FileRemoved (path : string).

(** The files on disk: path to contents. *)
Abbreviation filesystem := (gmap string bytes).

(** What a call leaves behind: the value it returned or the exception it
    raised, the files on disk when it ended, and its file-related effects. *)
Record outcome (A : Type) : Type :=
  Outcome { returned : result A; disk : filesystem; trace : list event }.
Arguments Outcome {A} returned disk trace.
Arguments returned {A} o.
Arguments disk {A} o.
Arguments trace {A} o.

(** Computations that read the environment, change the files on disk and
    may raise.  The disk reached when an exception is raised is kept:
    whatever was written at that point stays there. *)
Definition M (A : Type) : Type := env -> filesystem -> outcome A.

Definition ret {A} (a : A) : M A := fun _ fs => Outcome (Ok a) fs [].

Definition bind {A B} (m : M A) (k : A -> M B) : M B :=
  fun E fs =>
    match m E fs with
    | Outcome (Ok a) fs1 t1 =>
        match k a E fs1 with
        | Outcome r fs2 t2 => Outcome r fs2 (t1 ++ t2)
        end
    | Outcome (Err e) fs1 t1 => Outcome (Err e) fs1 t1
    end.

Definition raise {A} (e : exn) : M A := fun _ fs => Outcome (Err e) fs [].

(** A call into the environment.  The libraries called this way read their
    templates and keep their working files in directories of their own;
    the files followed here are changed only through the operations below. *)
Definition call {A} (f : env -> result A) : M A :=
  fun E fs => Outcome (f E) fs [].

Definition emit (ev : event) : M unit := fun _ fs => Outcome (Ok tt) fs [ev].

Notation "x <- m ;; k" := (bind m (fun x => k))
  (at level 100, m at next level, right associativity).
Notation "m ;;; k" := (bind m (fun _ => k))
  (at level 100, right associativity).

(** [with tempfile.NamedTemporaryFile(suffix=..., delete=False) as f:
    temp_path = f.name]: an empty file is created under a name of the
    system's choosing and closed; it is not deleted on close. *)
Definition named_temporary_file (suffix : string) : M string :=
  fun E fs =>
    match NamedTemporaryFile E fs suffix with
    | Ok name => Outcome (Ok name) (<[name := []]> fs) [FileCreated name]
    | Err e => Outcome (Err e) fs []
    end.

(** A library call that writes its result to [path]: [template.pack(path)],
    [doc.save(path)].  When the call raises, the file holds what the library
    had written by then; when it had not started on the file, the file is
    as it was. *)
Definition library_write (path : string) (written : env -> result bytes)
    (partial : env -> option bytes) : M unit :=
  fun E fs =>
    match written E with
    | Ok data => Outcome (Ok tt) (<[path := data]> fs) [FileWritten path]
    | Err e =>
        match partial E with
        | Some data => Outcome (Err e) (<[path := data]> fs) [FileWritten path]
        | None => Outcome (Err e) fs []
        end
    end.

(** [with open(path, 'rb') as f: f.read()].  Of the errors of the operating
    system only the missing file is accounted for, here and in
    [os_unlink]. *)
Definition read_file (path : string) : M bytes :=
  fun _ fs =>
    match fs !! path with
    | Some data => Outcome (Ok data) fs [FileRead path]
    | None => Outcome (Err (Raise FileNotFoundError path)) fs []
    end.

(** [os.unlink(path)]. *)
Definition os_unlink (path : string) : M unit :=
  fun _ fs =>
    match fs !! path with
    | Some _ => Outcome (Ok tt) (delete path fs) [FileRemoved path]
    | None => Outcome (Err (Raise FileNotFoundError path)) fs []
    end.

(** ** [documentos_office_service_refactored] *)

(** The [DocumentGenerator] interface.  The generators hold no state, so a
    class and its instances are described by the same record: the class
    name, the [extension] property and the [generar] method. *)
Record DocumentGenerator : Type :=
  { class_name : string;
    extension : string;
    generar : string -> string -> context -> M BytesIO }.

(** [generator_class()]. *)
Definition instantiate (generator_class : DocumentGenerator) : DocumentGenerator :=
  generator_class.

Section Generators.

(** The module-level flag set by the guarded import of WeasyPrint. *)
Variable WEASYPRINT_AVAILABLE : bool.

Definition weasyprint_missing_message : string :=
  "WeasyPrint no está disponible. " +:+
  "Para generar PDFs, instala GTK+ en Windows o usa un ambiente Linux.".

Definition PDFDocumentGenerator_generar
    (carpeta plantilla : string) (ctx : context) : M BytesIO :=
  if negb WEASYPRINT_AVAILABLE then
    raise (Raise RuntimeError weasyprint_missing_message)
  else
    let name := carpeta +:+ "/" +:+ plantilla +:+ ".html" in
    emit (TemplateLookup name) ;;;
    html_string <- call (fun E => render_template E name ctx) ;;
    base_url <- call (fun E => url_for E "static" "" true) ;;
    bytes_data <- call (fun E => write_pdf E html_string base_url) ;;
    ret {| getvalue := bytes_data; tell := 0 |}.

Definition PDFDocumentGenerator : DocumentGenerator :=
  {| class_name := "PDFDocumentGenerator";
     extension := "pdf";
     generar := PDFDocumentGenerator_generar |}.

(** The body of [with ODTTemplate(path_template) as template:].  The
    template's [__exit__] discards the library's own unpacking directory
    and lets exceptions through. *)
Definition ODTDocumentGenerator_generar
    (carpeta plantilla : string) (ctx : context) : M BytesIO :=
  media_path <- call (fun E => url_for E "static" "media" false) ;;
  root <- call (fun E => Ok (root_path E)) ;;
  let path_template := os_path_join root [carpeta; plantilla +:+ ".odt"] in
  temp_path <- named_temporary_file ".odt" ;;
  emit (TemplateLookup path_template) ;;;
  template <- call (fun E => ODTTemplate E path_template) ;;
  rendered <- call (fun E => odt_render E media_path template ctx) ;;
  library_write temp_path (fun E => odt_pack E rendered)
                          (fun E => odt_pack_partial E rendered) ;;;
  data <- read_file temp_path ;;
  os_unlink temp_path ;;;
  ret {| getvalue := data; tell := 0 |}.

Definition ODTDocumentGenerator : DocumentGenerator :=
  {| class_name := "ODTDocumentGenerator";
     extension := "odt";
     generar := ODTDocumentGenerator_generar |}.

(** [DocxTemplate(path_template)] takes the path and opens nothing (the
    event records the path handed over); the package is loaded by
    [doc.render], after the scratch file has been created. *)
Definition DOCXDocumentGenerator_generar
    (carpeta plantilla : string) (ctx : context) : M BytesIO :=
  root <- call (fun E => Ok (root_path E)) ;;
  let path_template := os_path_join root [carpeta; plantilla +:+ ".docx"] in
  emit (TemplateLookup path_template) ;;;
  temp_path <- named_temporary_file ".docx" ;;
  doc <- call (fun E => docx_open E path_template) ;;
  rendered <- call (fun E => docx_render E doc ctx) ;;
  library_write temp_path (fun E => docx_save E rendered)
                          (fun E => docx_save_partial E rendered) ;;;
  data <- read_file temp_path ;;
  os_unlink temp_path ;;;
  ret {| getvalue := data; tell := 0 |}.

Definition DOCXDocumentGenerator : DocumentGenerator :=
  {| class_name := "DOCXDocumentGenerator";
     extension := "docx";
     generar := DOCXDocumentGenerator_generar |}.

End Generators.

(** *** [DocumentGeneratorFactory]

    The class attribute [_generators] is process-wide state; it is passed
    explicitly, and [register] returns the updated dictionary. *)
Definition registry : Type := dict DocumentGenerator.

Definition register (generators : registry) (format_type : string)
    (generator_class : DocumentGenerator) : registry :=
  dict_set generators (lower format_type) generator_class.

(** [dict.get] yields [None] for a missing key, which is the one falsy value
    the test [if not generator_class] can meet: class objects are truthy. *)
Definition create (generators : registry) (format_type : string)
    : result DocumentGenerator :=
  match dict_get generators (lower format_type) with
  | None =>
      let available := str_join ", " (dict_keys generators) in
      Err (Raise ValueError
             ("Formato '" +:+ format_type +:+ "' no soportado. " +:+
              "Formatos disponibles: " +:+ available))
  | Some generator_class => Ok (instantiate generator_class)
  end.

Definition get_available_formats (generators : registry) : list string :=
  dict_keys generators.

(** *** Module initialisation *)

(** What [from weasyprint import HTML] does in the running environment. *)
Inductive import_outcome : Type :=
  | Imported
  | ImportRaised (e : exn).

(** [try: from weasyprint import HTML ... except (ImportError, OSError):].
    Any other exception leaves the [try] statement and aborts the import of
    the module. *)
Definition import_weasyprint (o : import_outcome) : result bool :=
  match o with
  | Imported => Ok true
  | ImportRaised e =>
      if is_ImportError (exn_cls e) || is_OSError (exn_cls e)
      then Ok false
      else Err e
  end.

Record module_state : Type :=
  { WEASYPRINT_AVAILABLE : bool;
    _generators : registry }.

(** The top-level statements of the module, in order: the guarded import,
    the empty class attribute, and the three registrations.  (The other
    imports of the module are not guarded and play no part here.) *)
Definition module_init (o : import_outcome) : result module_state :=
  result_bind (import_weasyprint o) (fun available =>
    let g0 : registry := [] in
    let g1 := register g0 "pdf" (PDFDocumentGenerator available) in
    let g2 := register g1 "odt" ODTDocumentGenerator in
    let g3 := register g2 "docx" DOCXDocumentGenerator in
    Ok {| WEASYPRINT_AVAILABLE := available; _generators := g3 |}).

(** The legacy entry point. *)
Definition obtener_tipo_documento (generators : registry) (tipo : string)
    : result DocumentGenerator :=
  create generators tipo.

(** ** [alumno_service] *)

(** Decimal digits of a number, and the two-digit zero-padded form that
    [%d] and [%m] produce. *)
Definition decimal (n : nat) : string := NilZero.string_of_uint (Nat.to_uint n).

Definition two_digits (n : nat) : string :=
  if (n <? 10)%nat then "0" +:+ decimal n else decimal n.

(** One conversion of [strftime]; a character that is no conversion of the
    ones below is copied together with its percent sign. *)
Definition strftime_directive (E : env) (c : ascii) (t : datetime) : string :=
  if Ascii.eqb c "d" then two_digits (day t)
  else if Ascii.eqb c "m" then two_digits (month t)
  else if Ascii.eqb c "B" then month_name E (month t)
  else if Ascii.eqb c "Y" then decimal (year t)
  else if Ascii.eqb c "%" then "%"
  else String "%" (String c "").

Fixpoint strftime (E : env) (t : datetime) (format : string) : string :=
  match format with
  | EmptyString => ""
  | String "%" (String c rest) => strftime_directive E c t +:+ strftime E t rest
  | String c rest => String c (strftime E t rest)
  end.

Definition _obtener_fecha_actual : M string :=
  call (fun E =>
    let fecha_actual := now E in
    Ok (strftime E fecha_actual "%d de %B de %Y")).

(** Attribute access on a relationship that may be [None]. *)
Definition getattr_facultad (especialidad : option Especialidad)
    : result (option Facultad) :=
  match especialidad with
  | Some e => Ok (especialidad_facultad e)
  | None =>
      Err (Raise AttributeError "'NoneType' object has no attribute 'facultad'")
  end.

Definition getattr_universidad (facultad : option Facultad)
    : result (option Universidad) :=
  match facultad with
  | Some f => Ok (facultad_universidad f)
  | None =>
      Err (Raise AttributeError "'NoneType' object has no attribute 'universidad'")
  end.

Definition py_especialidad (o : option Especialidad) : pyvalue :=
  match o with Some e => PyEspecialidad e | None => PyNone end.

Definition py_facultad (o : option Facultad) : pyvalue :=
  match o with Some f => PyFacultad f | None => PyNone end.

Definition py_universidad (o : option Universidad) : pyvalue :=
  match o with Some u => PyUniversidad u | None => PyNone end.

Definition _obtener_contexto_alumno (alumno : Alumno) : M context :=
  let especialidad := alumno_especialidad alumno in
  facultad <- call (fun _ => getattr_facultad especialidad) ;;
  universidad <- call (fun _ => getattr_universidad facultad) ;;
  fecha <- _obtener_fecha_actual ;;
  ret [ ("alumno", PyAlumno alumno);
        ("especialidad", py_especialidad especialidad);
        ("facultad", py_facultad facultad);
        ("universidad", py_universidad universidad);
        ("fecha", PyStr fecha) ].

(** What a lookup function gives back to its caller: a generator
    instance, or [None]. *)
Definition objeto : Type := option DocumentGenerator.

(** [bool(documento)]: [None] is falsy; a generator instance is truthy,
    the generator classes defining neither [__bool__] nor [__len__]. *)
Definition truthy (documento : objeto) : bool :=
  match documento with
  | Some _ => true
  | None => false
  end.

(** [documento.generar(carpeta=..., plantilla=..., context=...)]: the
    method of the instance; on [None] the attribute access raises. *)
Definition llamar_generar (documento : objeto)
    (carpeta plantilla : string) (ctx : context) : M BytesIO :=
  match documento with
  | Some generador => generar generador carpeta plantilla ctx
  | None =>
      raise (Raise AttributeError "'NoneType' object has no attribute 'generar'")
  end.

(** A function that returns a generator instance, never [None], seen as a
    lookup function. *)
Definition devuelve_instancia (f : string -> result DocumentGenerator)
    (tipo : string) : result objeto :=
  result_bind (f tipo) (fun generador => Ok (Some generador)).

(** [generar_certificado_alumno_regular].  The service imports its lookup
    function, under the name [obtener_tipo_documento], from the module
    [app.services.documentos_office_service], which is not among the
    sources: it is a parameter here, and may return [None].  The [None]
    of the result is what the two early [return None] give back. *)
Definition generar_certificado_alumno_regular
    (obtener : string -> result objeto) (id : Z) (tipo : string)
    : M (option BytesIO) :=
  alumno <- call (fun E => buscar_por_id E id) ;;
  match alumno with
  | None => ret None
  | Some alumno =>
      ctx <- _obtener_contexto_alumno alumno ;;
      documento <- call (fun _ => obtener tipo) ;;
      if negb (truthy documento) then ret None
      else
        doc <- llamar_generar documento "certificado" "certificado_pdf" ctx ;;
        ret (Some doc)
  end.

(** ** Predicates of the statements *)

(** Every identifier of the registry is bound to a generator with that
    extension. *)
Definition extensions_agree (generators : registry) : Prop :=
  Forall (fun kv => extension (snd kv) = fst kv) generators.

(** Whether the chain specialty, faculty, university has a null link. *)
Definition has_null_link (alumno : Alumno) : bool :=
  match alumno_especialidad alumno with
  | None => true
  | Some e =>
      match especialidad_facultad e with
      | None => true
      | Some f =>
          match facultad_universidad f with
          | None => true
          | Some _ => false
          end
      end
  end.

(** The paths under which a call looked for its template. *)
Definition template_lookups (t : list event) : list string :=
  flat_map (fun ev => match ev with TemplateLookup p => [p] | _ => [] end) t.

(** ** Sample data

    Concrete entities, environments and registries on which the
    definitions are run. *)

Definition universidad_estatal : Universidad :=
  {| universidad_nombre := "State University" |}.

Definition facultad_ingenieria : Facultad :=
  {| facultad_nombre := "Engineering";
     facultad_universidad := Some universidad_estatal |}.

Definition especialidad_matematica : Especialidad :=
  {| especialidad_nombre := "Mathematics";
     especialidad_facultad := Some facultad_ingenieria |}.

Definition alumno_completo : Alumno :=
  {| alumno_nombre := "Ana";
     alumno_apellido := "Paz";
     alumno_especialidad := Some especialidad_matematica |}.

(** A student whose specialty has no linked faculty. *)
Definition alumno_sin_facultad : Alumno :=
  {| alumno_nombre := "Luis";
     alumno_apellido := "Rey";
     alumno_especialidad :=
       Some {| especialidad_nombre := "Mathematics";
               especialidad_facultad := None |} |}.

(** A student whose faculty has no linked university. *)
Definition alumno_sin_universidad : Alumno :=
  {| alumno_nombre := "Eva";
     alumno_apellido := "Sosa";
     alumno_especialidad :=
       Some {| especialidad_nombre := "Mathematics";
               especialidad_facultad :=
                 Some {| facultad_nombre := "Engineering";
                         facultad_universidad := None |} |} |}.

(** Month names of the C locale. *)
Definition c_locale_month (m : nat) : string :=
  nth (m - 1)
    [ "January"; "February"; "March"; "April"; "May"; "June"; "July";
      "August"; "September"; "October"; "November"; "December" ] "".

(** An environment in which every library call succeeds. *)
Definition env_ok : env :=
  {| root_path := "/srv/app";
     url_for := fun _ filename _ => Ok ("/static/" +:+ filename);
     render_template := fun _ _ => Ok "<html></html>";
     write_pdf := fun _ _ => Ok [Byte.x25; Byte.x50; Byte.x44; Byte.x46];
     ODTTemplate := fun _ => Ok [Byte.x01];
     odt_render := fun _ template _ => Ok template;
     odt_pack := fun _ => Ok [Byte.x50; Byte.x4b; Byte.x03; Byte.x04];
     odt_pack_partial := fun _ => None;
     docx_open := fun _ => Ok [Byte.x02];
     docx_render := fun doc _ => Ok doc;
     docx_save := fun _ => Ok [Byte.x50; Byte.x4b; Byte.x03; Byte.x04];
     docx_save_partial := fun _ => None;
     NamedTemporaryFile := fun _ suffix => Ok ("/tmp/tmpk3x9" +:+ suffix);
     now := {| year := 2024; month := 3; day := 5 |};
     month_name := c_locale_month;
     buscar_por_id :=
       fun id => Ok (if (id =? 1)%Z then Some alumno_completo else None) |}.

(** The same environment, except that rendering a template fails (a
    placeholder of the template is missing from the context). *)
Definition env_render_fails : env :=
  let undefined := Raise (LibraryError "jinja2.exceptions.UndefinedError")
                         "'alumno' is undefined" in
  {| root_path := root_path env_ok;
     url_for := url_for env_ok;
     render_template := fun _ _ => Err undefined;
     write_pdf := write_pdf env_ok;
     ODTTemplate := ODTTemplate env_ok;
     odt_render := fun _ _ _ => Err undefined;
     odt_pack := odt_pack env_ok;
     odt_pack_partial := odt_pack_partial env_ok;
     docx_open := docx_open env_ok;
     docx_render := fun _ _ => Err undefined;
     docx_save := docx_save env_ok;
     docx_save_partial := docx_save_partial env_ok;
     NamedTemporaryFile := NamedTemporaryFile env_ok;
     now := now env_ok;
     month_name := month_name env_ok;
     buscar_por_id := buscar_por_id env_ok |}.

(** The registry right after the module is imported with WeasyPrint
    present. *)
Definition builtin_generators : registry :=
  register
    (register (register [] "pdf" (PDFDocumentGenerator true))
              "odt" ODTDocumentGenerator)
    "docx" DOCXDocumentGenerator.

(** ** [base_service] and [base_repository] *)

(** [attr.startswith('_')]. *)
Definition startswith_underscore (attr : string) : bool :=
  match attr with
  | String "_" _ => true
  | _ => false
  end.

(** The test of the default [actualizar_campos]:
    [attr not in ['_sa_instance_state', 'id'] and not attr.startswith('_')]. *)
Definition es_campo_copiable (attr : string) : bool :=
  negb (existsb (String.eqb attr) ["_sa_instance_state"; "id"]) &&
  negb (startswith_underscore attr).

Section BaseService.

(** The values held by the attributes of an entity. *)
Context {V : Type}.

(** An entity, as its [__dict__]: attribute names to values, and
    [setattr] assigns in that dictionary. *)
Definition entidad : Type := dict V.

(** [BaseService.actualizar_campos], the default: the loop over
    [nuevo.__dict__.items()]. *)
Definition actualizar_campos_item (existente : entidad) (item : string * V)
    : entidad :=
  let '(attr, value) := item in
  if es_campo_copiable attr then dict_set existente attr value else existente.

Definition actualizar_campos (existente nuevo : entidad) : entidad :=
  fold_left actualizar_campos_item nuevo existente.

(** What the repository does with the database: the row found for an id
    (or an exception), and whether committing an entity raises. *)
Record base_datos : Type :=
  { fila_por_id : Z -> result (option entidad);
    error_de_commit : entidad -> option exn }.

(** [BaseRepository.buscar_por_id]. *)
Definition BaseRepository_buscar_por_id (db : base_datos) (id : Z)
    : result (option entidad) :=
  fila_por_id db id.

(** [BaseRepository.actualizar]: merge, commit, and the entity it was given
    is returned. *)
Definition BaseRepository_actualizar (db : base_datos) (entity : entidad)
    : result entidad :=
  match error_de_commit db entity with
  | Some e => Err e
  | None => Ok entity
  end.

(** [BaseService.actualizar]; [campos] is the [actualizar_campos] of the
    service class at hand. *)
Definition BaseService_actualizar (db : base_datos)
    (campos : entidad -> entidad -> entidad) (id : Z) (entity : entidad)
    : result (option entidad) :=
  result_bind (BaseRepository_buscar_por_id db id) (fun existente =>
    match existente with
    | None => Ok None
    | Some existente =>
        result_bind (BaseRepository_actualizar db (campos existente entity))
          (fun actualizado => Ok (Some actualizado))
    end).

End BaseService.

(** ** Registries built by registration *)

(** The registry after a sequence of [register] calls on the empty class
    attribute, first call first. *)
Definition registry_of (calls : list (string * DocumentGenerator)) : registry :=
  fold_left (fun generators c => register generators (fst c) (snd c)) calls [].

(** ** More sample data *)

(** An environment in which no template file can be opened. *)
Definition env_sin_plantillas : env :=
  let missing := Raise FileNotFoundError "No such file or directory" in
  {| root_path := root_path env_ok;
     url_for := url_for env_ok;
     render_template := render_template env_ok;
     write_pdf := write_pdf env_ok;
     ODTTemplate := fun _ => Err missing;
     odt_render := odt_render env_ok;
     odt_pack := odt_pack env_ok;
     odt_pack_partial := odt_pack_partial env_ok;
     docx_open := fun _ => Err missing;
     docx_render := docx_render env_ok;
     docx_save := docx_save env_ok;
     docx_save_partial := docx_save_partial env_ok;
     NamedTemporaryFile := NamedTemporaryFile env_ok;
     now := now env_ok;
     month_name := month_name env_ok;
     buscar_por_id := buscar_por_id env_ok |}.

(** A repository that finds, under id 2, a student whose specialty has no
    faculty. *)
Definition env_alumno_sin_facultad : env :=
  {| root_path := root_path env_ok;
     url_for := url_for env_ok;
     render_template := render_template env_ok;
     write_pdf := write_pdf env_ok;
     ODTTemplate := ODTTemplate env_ok;
     odt_render := odt_render env_ok;
     odt_pack := odt_pack env_ok;
     odt_pack_partial := odt_pack_partial env_ok;
     docx_open := docx_open env_ok;
     docx_render := docx_render env_ok;
     docx_save := docx_save env_ok;
     docx_save_partial := docx_save_partial env_ok;
     NamedTemporaryFile := NamedTemporaryFile env_ok;
     now := now env_ok;
     month_name := month_name env_ok;
     buscar_por_id :=
       fun id => Ok (if (id =? 2)%Z then Some alumno_sin_facultad else None) |}.

(** An environment in which packing and saving raise (no space left on the
    device) after the first two bytes of the container were written. *)
Definition env_pack_fails : env :=
  let full := Raise OSError "No space left on device" in
  {| root_path := root_path env_ok;
     url_for := url_for env_ok;
     render_template := render_template env_ok;
     write_pdf := write_pdf env_ok;
     ODTTemplate := ODTTemplate env_ok;
     odt_render := odt_render env_ok;
     odt_pack := fun _ => Err full;
     odt_pack_partial := fun _ => Some [Byte.x50; Byte.x4b];
     docx_open := docx_open env_ok;
     docx_render := docx_render env_ok;
     docx_save := fun _ => Err full;
     docx_save_partial := fun _ => Some [Byte.x50; Byte.x4b];
     NamedTemporaryFile := NamedTemporaryFile env_ok;
     now := now env_ok;
     month_name := month_name env_ok;
     buscar_por_id := buscar_por_id env_ok |}.

(** A lookup function that answers [None] for a format it does not know,
    as [dict.get] does. *)
Definition obtener_o_none (generators : registry) (tipo : string)
    : result objeto :=
  Ok (dict_get generators (lower tipo)).

(** A stored row and an incoming entity, as attribute dictionaries. *)
Definition fila_existente : @entidad string :=
  [ ("_sa_instance_state", "persistent"); ("id", "1"); ("nombre", "Ana");
    ("apellido", "Paz") ].

Definition entidad_nueva : @entidad string :=
  [ ("_sa_instance_state", "transient"); ("id", "9"); ("nombre", "Eva");
    ("_cache", "x") ].

Definition db_una_fila : @base_datos string :=
  {| fila_por_id := fun id => Ok (if (id =? 1)%Z then Some fila_existente else None);
     error_de_commit := fun _ => None |}.

(** * Properties *)

(** ** Dictionaries *)

Section DictFacts.

Context {V : Type}.
Implicit Types (d : dict V) (k : string) (v : V).

Lemma dict_get_None d k : dict_get d k = None <-> ~ In k (dict_keys d).
Proof.
  induction d as [|[k' v'] d IH]; simpl.
  - tauto.
  - destruct (String.eqb_spec k' k) as [->|Hne].
    + split; [discriminate | tauto].
    + rewrite IH. tauto.
Qed.

Lemma dict_get_Some_In d k v : dict_get d k = Some v -> In k (dict_keys d).
Proof.
  induction d as [|[k' v'] d IH]; simpl.
  - discriminate.
  - destruct (String.eqb_spec k' k) as [->|Hne]; auto.
Qed.

Lemma dict_get_set d k v : dict_get (dict_set d k v) k = Some v.
Proof.
  induction d as [|[k' v'] d IH]; simpl.
  - now rewrite String.eqb_refl.
  - destruct (String.eqb k' k) eqn:Hk; simpl; rewrite Hk; auto.
Qed.

Lemma dict_keys_set_new d k v :
  ~ In k (dict_keys d) -> dict_keys (dict_set d k v) = (dict_keys d ++ [k])%list.
Proof.
  induction d as [|[k' v'] d IH]; simpl; intros Hout.
  - reflexivity.
  - destruct (String.eqb_spec k' k) as [->|Hne].
    + tauto.
    + simpl. f_equal. apply IH. tauto.
Qed.

Lemma dict_keys_set_old d k v :
  In k (dict_keys d) -> dict_keys (dict_set d k v) = dict_keys d.
Proof.
  induction d as [|[k' v'] d IH]; simpl; intros Hin.
  - contradiction.
  - destruct (String.eqb_spec k' k) as [->|Hne].
    + reflexivity.
    + simpl. f_equal. apply IH. tauto.
Qed.

End DictFacts.

(** ** The generator factory *)

(** C6.  When the lower-cased identifier is not a key of the registry,
    [create] raises [ValueError] (the spec's UnsupportedFormatError), and
    the message names the identifier as given and lists the registered
    identifiers, all of them and nothing else, separated by commas. *)
Theorem create_unregistered_raises (generators : registry) (format_type : string) :
  ~ In (lower format_type) (get_available_formats generators) ->
  create generators format_type =
    Err (Raise ValueError
           ("Formato '" +:+ format_type +:+ "' no soportado. " +:+
            "Formatos disponibles: " +:+
            str_join ", " (get_available_formats generators))).
Proof.
  intros Hout. unfold create.
  apply dict_get_None in Hout. now rewrite Hout.
Qed.

Lemma create_unregistered_raises_witness :
  ~ In (lower "XYZ") (get_available_formats builtin_generators) /\
  create builtin_generators "XYZ" =
    Err (Raise ValueError
           "Formato 'XYZ' no soportado. Formatos disponibles: pdf, odt, docx").
Proof.
  assert (Hout : ~ In (lower "XYZ") (get_available_formats builtin_generators)).
  { simpl. intros [H|[H|[H|[]]]]; discriminate H. }
  split; [exact Hout | exact (create_unregistered_raises _ _ Hout)].
Defined.

(** C7 as stated fails: an identifier can be bound to a class whose
    extension is something else.  After [register('word',
    DOCXDocumentGenerator)] the identifier [word] is registered and
    [create('word')] returns a generator whose extension is [docx]. *)
Lemma create_extension_differs_from_id :
  let generators := register builtin_generators "word" DOCXDocumentGenerator in
  In "word" (get_available_formats generators) /\
  exists g, create generators "word" = Ok g /\ extension g <> "word".
Proof.
  simpl. split.
  - tauto.
  - exists DOCXDocumentGenerator. split; [reflexivity | discriminate].
Qed.

(** C7, amended.  In the registry that the module builds when it is
    imported, every registered identifier is bound to a generator with that
    very extension: [create(f)] succeeds and [extension] is [f]. *)
Theorem create_builtin_extension (o : import_outcome) (st : module_state)
    (f : string) :
  module_init o = Ok st ->
  In f (get_available_formats (_generators st)) ->
  exists g, create (_generators st) f = Ok g /\ extension g = f.
Proof.
  unfold module_init. destruct (import_weasyprint o) as [available|e]; simpl;
    [|discriminate].
  intros [= <-]. simpl.
  intros [<-|[<-|[<-|[]]]]; eexists; split; reflexivity.
Qed.

Lemma create_builtin_extension_witness :
  exists g, create builtin_generators "docx" = Ok g /\ extension g = "docx".
Proof.
  refine (create_builtin_extension Imported
            {| WEASYPRINT_AVAILABLE := true;
               _generators := builtin_generators |} "docx" _ _).
  - reflexivity.
  - simpl. tauto.
Defined.

(** [register] keeps the agreement between identifiers and extensions when
    it is given a class whose extension is the lower-cased identifier; it
    performs no such check itself. *)
Lemma register_extensions_agree generators f G :
  extensions_agree generators ->
  extension G = lower f ->
  extensions_agree (register generators f G).
Proof.
  unfold extensions_agree, register. intros Hall Hext.
  induction Hall as [|[k v] d Hkv Hd IH]; simpl.
  - constructor; [exact Hext | constructor].
  - destruct (String.eqb_spec k (lower f)) as [->|Hne].
    + constructor; [exact Hext | exact Hd].
    + constructor; [exact Hkv | exact IH].
Qed.

(** C8.  [register] is last-write-wins.  A new identifier (after
    lower-casing) is appended, so the list of formats grows by one entry;
    an identifier already present keeps the list as it is; in both cases
    [create] then instantiates the class just registered. *)
Theorem register_last_write_wins (generators : registry) (f : string)
    (G : DocumentGenerator) :
  (~ In (lower f) (get_available_formats generators) ->
     get_available_formats (register generators f G) =
       (get_available_formats generators ++ [lower f])%list /\
     length (get_available_formats (register generators f G)) =
       S (length (get_available_formats generators))) /\
  (In (lower f) (get_available_formats generators) ->
     get_available_formats (register generators f G) =
       get_available_formats generators /\
     length (get_available_formats (register generators f G)) =
       length (get_available_formats generators)) /\
  create (register generators f G) f = Ok (instantiate G).
Proof.
  unfold get_available_formats, register, create. repeat split.
  - now apply dict_keys_set_new.
  - rewrite dict_keys_set_new by assumption.
    rewrite length_app. simpl. lia.
  - now apply dict_keys_set_old.
  - now rewrite dict_keys_set_old.
  - now rewrite dict_get_set.
Qed.

Lemma register_last_write_wins_witness :
  (get_available_formats (register builtin_generators "TXT" ODTDocumentGenerator)
     = ["pdf"; "odt"; "docx"; "txt"]) /\
  (get_available_formats (register builtin_generators "PDF" ODTDocumentGenerator)
     = ["pdf"; "odt"; "docx"]) /\
  create (register builtin_generators "PDF" ODTDocumentGenerator) "PDF"
    = Ok ODTDocumentGenerator.
Proof.
  destruct (register_last_write_wins builtin_generators "TXT" ODTDocumentGenerator)
    as (Hnew & _ & _).
  destruct (register_last_write_wins builtin_generators "PDF" ODTDocumentGenerator)
    as (_ & Hold & Hcreate).
  split; [|split].
  - apply Hnew. simpl. intros [H|[H|[H|[]]]]; discriminate H.
  - apply Hold. simpl. tauto.
  - exact Hcreate.
Defined.

(** ** Module initialisation and the PDF backend *)

(** C5.  Whether WeasyPrint imports or fails to import with [ImportError]
    or [OSError], the module initialises, and afterwards the registered
    formats are [pdf], [odt] and [docx]; only the availability flag
    differs. *)
Theorem builtin_formats_registered :
  (exists st, module_init Imported = Ok st /\
     WEASYPRINT_AVAILABLE st = true /\
     get_available_formats (_generators st) = ["pdf"; "odt"; "docx"]) /\
  (forall e, is_ImportError (exn_cls e) || is_OSError (exn_cls e) = true ->
     exists st, module_init (ImportRaised e) = Ok st /\
       WEASYPRINT_AVAILABLE st = false /\
       get_available_formats (_generators st) = ["pdf"; "odt"; "docx"]).
Proof.
  split.
  - eexists. repeat split.
  - intros e Hcaught. unfold module_init, import_weasyprint.
    rewrite Hcaught. eexists. repeat split.
Qed.

Lemma builtin_formats_registered_witness :
  exists st,
    module_init (ImportRaised (Raise OSError "cannot load library 'gobject-2.0-0'"))
      = Ok st /\
    WEASYPRINT_AVAILABLE st = false /\
    get_available_formats (_generators st) = ["pdf"; "odt"; "docx"].
Proof.
  destruct builtin_formats_registered as [_ Hmissing].
  apply Hmissing. reflexivity.
Defined.

(** C4.  When the import of WeasyPrint fails with [ImportError] or
    [OSError], importing the module still succeeds, with the flag off; and
    with the flag off every call of the PDF generator raises [RuntimeError]
    (the spec's BackendUnavailableError) with the remediation message,
    before looking up any template or touching the disk. *)
Theorem pdf_backend_unavailable (e : exn) :
  is_ImportError (exn_cls e) || is_OSError (exn_cls e) = true ->
  exists st,
    module_init (ImportRaised e) = Ok st /\
    WEASYPRINT_AVAILABLE st = false /\
    exists pdf,
      create (_generators st) "pdf" = Ok pdf /\
      forall carpeta plantilla ctx E fs,
        generar pdf carpeta plantilla ctx E fs =
          Outcome
            (Err (Raise RuntimeError
               ("WeasyPrint no está disponible. " +:+
                "Para generar PDFs, instala GTK+ en Windows o usa un ambiente Linux.")))
            fs [].
Proof.
  intros Hcaught. unfold module_init, import_weasyprint. rewrite Hcaught.
  eexists. split; [reflexivity|]. split; [reflexivity|].
  exists (PDFDocumentGenerator false). split; reflexivity.
Qed.

Lemma pdf_backend_unavailable_witness :
  exists st,
    module_init (ImportRaised (Raise ModuleNotFoundError "No module named 'weasyprint'"))
      = Ok st /\
    exists pdf,
      create (_generators st) "pdf" = Ok pdf /\
      returned (generar pdf "certificado" "certificado_pdf" [] env_ok ∅)
        = Err (Raise RuntimeError weasyprint_missing_message).
Proof.
  destruct (pdf_backend_unavailable
              (Raise ModuleNotFoundError "No module named 'weasyprint'"))
    as (st & Hinit & _ & pdf & Hcreate & Hgen).
  - reflexivity.
  - exists st. split; [exact Hinit|].
    exists pdf. split; [exact Hcreate|]. now rewrite Hgen.
Defined.

(** ** The legacy lookup function *)



(** With a lookup that answers [None] the same test does hold: for a
    student that is found and a format that is not known, the service
    returns [None]. *)
Lemma certificado_none_with_none_lookup :
  buscar_por_id env_ok 1 = Ok (Some alumno_completo) /\
  generar_certificado_alumno_regular (obtener_o_none builtin_generators)
    1 "xyz" env_ok ∅ = Outcome (Ok None) ∅ [].
Proof. split; reflexivity. Qed.

(** ** Context assembly *)

Lemma append_empty_r (s : string) : s +:+ "" = s.
Proof.
  induction s as [|c s IH]; [reflexivity|].
  change (String c (s +:+ "") = String c s). now f_equal.
Qed.

(** The format of [_obtener_fecha_actual], conversion by conversion. *)
Lemma strftime_fecha (E : env) (t : datetime) :
  strftime E t "%d de %B de %Y" =
    two_digits (day t) +:+ " de " +:+ month_name E (month t) +:+ " de " +:+
    decimal (year t).
Proof.
  rewrite <- (append_empty_r (decimal (year t))) at 1. reflexivity.
Qed.

(** C9.  For a student whose specialty, faculty and university are all
    present, the context holds the four entities and, under [fecha], the
    date read from the clock at the call, written as the two-digit day, the
    locale's full month name and the year, joined by [" de "]. *)
Theorem contexto_alumno_completo (alumno : Alumno) (e : Especialidad)
    (f : Facultad) (u : Universidad) (E : env) (fs : filesystem) :
  alumno_especialidad alumno = Some e ->
  especialidad_facultad e = Some f ->
  facultad_universidad f = Some u ->
  _obtener_contexto_alumno alumno E fs =
    Outcome
      (Ok [ ("alumno", PyAlumno alumno);
            ("especialidad", PyEspecialidad e);
            ("facultad", PyFacultad f);
            ("universidad", PyUniversidad u);
            ("fecha",
             PyStr (two_digits (day (now E)) +:+ " de " +:+
                    month_name E (month (now E)) +:+ " de " +:+
                    decimal (year (now E)))) ])
      fs [].
Proof.
  intros He Hf Hu.
  unfold _obtener_contexto_alumno, _obtener_fecha_actual, bind, call, ret.
  rewrite He. cbn [getattr_facultad]. rewrite Hf. cbn [getattr_universidad].
  rewrite Hu, strftime_fecha. reflexivity.
Qed.

Lemma contexto_alumno_completo_witness :
  returned (_obtener_contexto_alumno alumno_completo env_ok ∅) =
    Ok [ ("alumno", PyAlumno alumno_completo);
         ("especialidad", PyEspecialidad especialidad_matematica);
         ("facultad", PyFacultad facultad_ingenieria);
         ("universidad", PyUniversidad universidad_estatal);
         ("fecha", PyStr "05 de March de 2024") ].
Proof.
  rewrite (contexto_alumno_completo alumno_completo especialidad_matematica
             facultad_ingenieria universidad_estatal env_ok ∅);
    reflexivity.
Defined.

(** C3 as stated fails.  A faculty without university is a null link of the
    chain, yet the context is assembled, with [None] under [universidad];
    and where assembly does fail, for a specialty without faculty, the
    exception is the interpreter's [AttributeError]. *)
Lemma null_university_context_is_returned :
  has_null_link alumno_sin_universidad = true /\
  (exists ctx,
     returned (_obtener_contexto_alumno alumno_sin_universidad env_ok ∅) = Ok ctx /\
     dict_get ctx "universidad" = Some PyNone) /\
  has_null_link alumno_sin_facultad = true /\
  returned (_obtener_contexto_alumno alumno_sin_facultad env_ok ∅) =
    Err (Raise AttributeError "'NoneType' object has no attribute 'universidad'").
Proof.
  split; [reflexivity|]. split; [|split; reflexivity].
  eexists. split; reflexivity.
Qed.

(** C3, amended.  A missing specialty or a missing faculty makes context
    assembly raise [AttributeError] at the attribute access on [None],
    without any effect; a missing university does not: the context is
    returned with [None] under [universidad]. *)
Theorem contexto_alumno_null_link (alumno : Alumno) (E : env) (fs : filesystem) :
  (alumno_especialidad alumno = None ->
     _obtener_contexto_alumno alumno E fs =
       Outcome
         (Err (Raise AttributeError "'NoneType' object has no attribute 'facultad'"))
         fs []) /\
  (forall e,
     alumno_especialidad alumno = Some e ->
     especialidad_facultad e = None ->
     _obtener_contexto_alumno alumno E fs =
       Outcome
         (Err (Raise AttributeError "'NoneType' object has no attribute 'universidad'"))
         fs []) /\
  (forall e f,
     alumno_especialidad alumno = Some e ->
     especialidad_facultad e = Some f ->
     facultad_universidad f = None ->
     _obtener_contexto_alumno alumno E fs =
       Outcome
         (Ok [ ("alumno", PyAlumno alumno);
               ("especialidad", PyEspecialidad e);
               ("facultad", PyFacultad f);
               ("universidad", PyNone);
               ("fecha", PyStr (strftime E (now E) "%d de %B de %Y")) ])
         fs []).
Proof.
  unfold _obtener_contexto_alumno, _obtener_fecha_actual, bind, call, ret.
  split; [|split].
  - intros ->. reflexivity.
  - intros e -> He. simpl. rewrite He. reflexivity.
  - intros e f -> He Hf. simpl. rewrite He. simpl. rewrite Hf. reflexivity.
Qed.

Lemma contexto_alumno_null_link_witness :
  returned (_obtener_contexto_alumno alumno_sin_facultad env_ok ∅) =
    Err (Raise AttributeError "'NoneType' object has no attribute 'universidad'").
Proof.
  destruct (contexto_alumno_null_link alumno_sin_facultad env_ok ∅)
    as (_ & Hfac & _).
  rewrite (Hfac _ eq_refl eq_refl). reflexivity.
Defined.

(** ** The generators *)

Ltac run_generator :=
  unfold generar, ODTDocumentGenerator, DOCXDocumentGenerator,
    PDFDocumentGenerator, ODTDocumentGenerator_generar,
    DOCXDocumentGenerator_generar, PDFDocumentGenerator_generar,
    bind, call, ret, raise, emit, named_temporary_file, library_write,
    read_file, os_unlink;
  simpl.

(** One step of a run: case analysis on the outcome of the next call into
    the environment, or the lookup of a file that was just written. *)
Ltac run_step :=
  match goal with
  | |- context [<[?k:=_]> _ !! ?k] => rewrite lookup_insert_eq
  | |- context [match ?r with Ok _ => _ | Err _ => _ end] =>
      lazymatch r with
      | context [match _ with _ => _ end] => fail
      | _ => destruct r eqn:?
      end
  | |- context [match ?r with Some _ => _ | None => _ end] =>
      lazymatch r with
      | odt_pack_partial _ _ => destruct r eqn:?
      | docx_save_partial _ _ => destruct r eqn:?
      end
  end; simpl.

(** The one [FileCreated] event of a trace names the scratch file. *)
Ltac created_is temp_path :=
  let H := fresh "Hin" in
  intros H; decompose [or] H; clear H;
  try discriminate; try contradiction;
  match goal with
  | Heq : FileCreated _ = FileCreated temp_path |- _ =>
      injection Heq as ->
  end.

(** C1 as stated fails.  When rendering raises, the scratch file that the
    ODT generator, and likewise the DOCX generator, created a moment before
    is still on disk after the call. *)
Lemma scratch_file_survives_failed_render :
  (let o := generar ODTDocumentGenerator "certificado" "certificado_pdf" []
              env_render_fails ∅ in
   is_Ok (returned o) = false /\
   In (FileCreated "/tmp/tmpk3x9.odt") (trace o) /\
   disk o !! "/tmp/tmpk3x9.odt" = Some []) /\
  (let o := generar DOCXDocumentGenerator "certificado" "certificado_pdf" []
              env_render_fails ∅ in
   is_Ok (returned o) = false /\
   In (FileCreated "/tmp/tmpk3x9.docx") (trace o) /\
   disk o !! "/tmp/tmpk3x9.docx" = Some []).
Proof.
  split; cbv zeta; (split; [reflexivity|]); (split; [simpl; tauto|]);
    vm_compute; reflexivity.
Qed.

(** What a run of the ODT generator does to its scratch file. *)
Lemma odt_scratch_file carpeta plantilla ctx E fs temp_path :
  let o := generar ODTDocumentGenerator carpeta plantilla ctx E fs in
  In (FileCreated temp_path) (trace o) ->
  if is_Ok (returned o) then disk o = delete temp_path fs
  else exists content, disk o = <[temp_path := content]> fs.
Proof.
  run_generator. repeat run_step; try (intros []; fail);
    created_is temp_path;
    try (now rewrite !delete_insert_eq);
    try (eexists; reflexivity);
    eexists; apply insert_insert_eq.
Qed.

(** The same for the DOCX generator. *)
Lemma docx_scratch_file carpeta plantilla ctx E fs temp_path :
  let o := generar DOCXDocumentGenerator carpeta plantilla ctx E fs in
  In (FileCreated temp_path) (trace o) ->
  if is_Ok (returned o) then disk o = delete temp_path fs
  else exists content, disk o = <[temp_path := content]> fs.
Proof.
  run_generator. repeat run_step; try (intros [[=]|[]]; fail);
    created_is temp_path;
    try (now rewrite !delete_insert_eq);
    try (eexists; reflexivity);
    eexists; apply insert_insert_eq.
Qed.

(** A successful run did create a scratch file. *)
Lemma scratch_file_created_on_success g carpeta plantilla ctx E fs :
  g = ODTDocumentGenerator \/ g = DOCXDocumentGenerator ->
  let o := generar g carpeta plantilla ctx E fs in
  is_Ok (returned o) = true ->
  exists temp_path, In (FileCreated temp_path) (trace o).
Proof.
  intros [->| ->]; run_generator; repeat run_step;
    intros; try discriminate; eexists; eauto 6.
Qed.

(** A run that created no scratch file left the disk as it was. *)
Lemma no_scratch_file_no_change g carpeta plantilla ctx E fs :
  g = ODTDocumentGenerator \/ g = DOCXDocumentGenerator ->
  let o := generar g carpeta plantilla ctx E fs in
  (forall temp_path, ~ In (FileCreated temp_path) (trace o)) ->
  disk o = fs.
Proof.
  intros [->| ->]; run_generator; repeat run_step; intros Hnone;
    try reflexivity; exfalso; eapply Hnone; simpl; eauto 6.
Qed.

(** C1, amended.  The scratch file of a call of the ODT or DOCX generator is
    gone when the call returns normally: the disk is the one before the
    call, without that name.  When the call raises after the scratch file
    was created, the file is still on disk. *)
Theorem scratch_file_removed_on_success_only
    (g : DocumentGenerator) (carpeta plantilla : string) (ctx : context)
    (E : env) (fs : filesystem) (temp_path : string) :
  g = ODTDocumentGenerator \/ g = DOCXDocumentGenerator ->
  let o := generar g carpeta plantilla ctx E fs in
  In (FileCreated temp_path) (trace o) ->
  (is_Ok (returned o) = true ->
     disk o = delete temp_path fs /\ disk o !! temp_path = None) /\
  (is_Ok (returned o) = false ->
     exists content, disk o !! temp_path = Some content).
Proof.
  intros Hg o Hin.
  assert (Hfate : if is_Ok (returned o) then disk o = delete temp_path fs
                  else exists content, disk o = <[temp_path := content]> fs).
  { subst o. destruct Hg as [->| ->];
      [now apply odt_scratch_file | now apply docx_scratch_file]. }
  destruct (is_Ok (returned o)); split; intros; try discriminate.
  - rewrite Hfate. split; [reflexivity | apply lookup_delete_eq].
  - destruct Hfate as [content ->]. exists content. apply lookup_insert_eq.
Qed.

Lemma scratch_file_removed_on_success_only_witness :
  (let o := generar ODTDocumentGenerator "certificado" "certificado_pdf" []
              env_ok ∅ in
   is_Ok (returned o) = true /\ disk o !! "/tmp/tmpk3x9.odt" = None) /\
  (let o := generar DOCXDocumentGenerator "certificado" "certificado_pdf" []
              env_pack_fails ∅ in
   is_Ok (returned o) = false /\
   exists content, disk o !! "/tmp/tmpk3x9.docx" = Some content).
Proof.
  cbv zeta. split; (split; [reflexivity|]).
  - refine (proj2 (proj1 (scratch_file_removed_on_success_only
              ODTDocumentGenerator "certificado" "certificado_pdf" [] env_ok ∅
              "/tmp/tmpk3x9.odt" _ _) _)).
    + left. reflexivity.
    + vm_compute. left. reflexivity.
    + reflexivity.
  - refine (proj2 (scratch_file_removed_on_success_only
              DOCXDocumentGenerator "certificado" "certificado_pdf" []
              env_pack_fails ∅ "/tmp/tmpk3x9.docx" _ _) _).
    + right. reflexivity.
    + vm_compute. right. left. reflexivity.
    + reflexivity.
Defined.

(** A run that fails while the library is writing leaves what was written
    so far. *)
Lemma scratch_file_holds_partial_write :
  disk (generar ODTDocumentGenerator "certificado" "certificado_pdf" []
          env_pack_fails ∅) !! "/tmp/tmpk3x9.odt"
  = Some [Byte.x50; Byte.x4b].
Proof. vm_compute. reflexivity. Qed.

(** [os.path.join] on plain names: no component is absolute, and the root
    and the folder are not empty and do not end with a separator. *)
Lemma endswith_sep_append (a b : string) :
  b <> "" -> endswith_sep (a +:+ b) = endswith_sep b.
Proof.
  intros Hb. induction a as [|c a IH]; [reflexivity|].
  change (endswith_sep (String c (a +:+ b)) = endswith_sep b).
  destruct (a +:+ b) as [|c' s'] eqn:Hab.
  - destruct a; [simpl in Hab; contradiction | discriminate Hab].
  - exact IH.
Qed.

Lemma os_path_join_plain (root carpeta fichero : string) :
  root <> "" -> endswith_sep root = false ->
  carpeta <> "" -> startswith_sep carpeta = false ->
  endswith_sep carpeta = false ->
  startswith_sep fichero = false ->
  os_path_join root [carpeta; fichero] =
    root +:+ "/" +:+ carpeta +:+ "/" +:+ fichero.
Proof.
  intros Hroot Hrend Hcar Hcstart Hcend Hfstart.
  unfold os_path_join, path_join_step. simpl fold_left.
  rewrite Hcstart, Hrend, Hfstart.
  destruct (String.eqb_spec root "") as [?|_]; [contradiction|]. simpl orb.
  assert (Hend : endswith_sep (root +:+ "/" +:+ carpeta) = false).
  { rewrite endswith_sep_append.
    - change (endswith_sep (String "/" carpeta) = false).
      destruct carpeta; [contradiction | exact Hcend].
    - discriminate. }
  rewrite Hend.
  destruct (String.eqb_spec (root +:+ "/" +:+ carpeta) "") as [Hnil|_].
  - destruct root; [contradiction | discriminate Hnil].
  - simpl orb. cbv iota.
    clear. induction root as [|c r IH]; [reflexivity|].
    change (String c ((r +:+ "/" +:+ carpeta) +:+ "/" +:+ fichero) =
            String c (r +:+ "/" +:+ carpeta +:+ "/" +:+ fichero)).
    now f_equal.
Qed.

(** C2 as stated fails for the PDF generator: its extension is [pdf], and
    the template it looks up is the HTML file of that name. *)
Lemma pdf_template_is_html :
  let o := generar (PDFDocumentGenerator true) "certificado" "certificado_pdf"
             [] env_ok ∅ in
  extension (PDFDocumentGenerator true) = "pdf" /\
  template_lookups (trace o) = ["certificado/certificado_pdf.html"] /\
  template_lookups (trace o) <> ["certificado/certificado_pdf.pdf"].
Proof.
  cbv zeta. split; [reflexivity|]. split; [reflexivity|]. discriminate.
Qed.

(** C2, amended.  The ODT and DOCX generators look up their template at
    [os.path.join(root_path, folder, template_name + "." + extension)], with
    their own extension; the PDF generator, whenever the backend is
    available, looks up the template named [folder/template_name.html]. *)
Theorem template_lookup_paths (carpeta plantilla : string) (ctx : context)
    (E : env) (fs : filesystem) :
  template_lookups
    (trace (generar (PDFDocumentGenerator true) carpeta plantilla ctx E fs)) =
    [carpeta +:+ "/" +:+ plantilla +:+ ".html"] /\
  template_lookups
    (trace (generar DOCXDocumentGenerator carpeta plantilla ctx E fs)) =
    [os_path_join (root_path E)
       [carpeta; plantilla +:+ "." +:+ extension DOCXDocumentGenerator]] /\
  (forall media_path temp_path,
     url_for E "static" "media" false = Ok media_path ->
     NamedTemporaryFile E fs ".odt" = Ok temp_path ->
     template_lookups
       (trace (generar ODTDocumentGenerator carpeta plantilla ctx E fs)) =
       [os_path_join (root_path E)
          [carpeta; plantilla +:+ "." +:+ extension ODTDocumentGenerator]]).
Proof.
  split; [|split].
  - run_generator. repeat run_step; reflexivity.
  - run_generator. repeat run_step; reflexivity.
  - intros media_path temp_path Hurl Htmp.
    run_generator. rewrite Hurl. simpl. rewrite Htmp. simpl.
    repeat run_step; reflexivity.
Qed.

Lemma template_lookup_paths_witness :
  template_lookups
    (trace (generar ODTDocumentGenerator "certificado" "certificado_pdf" []
              env_ok ∅)) =
    ["/srv/app/certificado/certificado_pdf.odt"].
Proof.
  destruct (template_lookup_paths "certificado" "certificado_pdf" [] env_ok ∅)
    as (_ & _ & Hodt).
  exact (Hodt "/static/media" "/tmp/tmpk3x9.odt" eq_refl eq_refl).
Defined.

(** * Further properties of the code *)

(** ** Lower-casing and dictionaries *)

Lemma lower_ascii_idempotent (c : ascii) :
  lower_ascii (lower_ascii c) = lower_ascii c.
Proof.
  destruct c as [[] [] [] [] [] [] [] []]; reflexivity.
Qed.

Lemma lower_idempotent (s : string) : lower (lower s) = lower s.
Proof.
  induction s as [|c s IH]; simpl; [reflexivity|].
  now rewrite lower_ascii_idempotent, IH.
Qed.

Section MoreDictFacts.

Context {V : Type}.
Implicit Types (d : dict V) (k : string) (v : V).

Lemma dict_get_set_other d k k' v :
  k <> k' -> dict_get (dict_set d k v) k' = dict_get d k'.
Proof.
  intros Hne. induction d as [|[k0 v0] d IH]; simpl.
  - destruct (String.eqb_spec k k'); [contradiction | reflexivity].
  - destruct (String.eqb_spec k0 k) as [->|Hk0]; simpl.
    + destruct (String.eqb_spec k k'); [contradiction | reflexivity].
    + now rewrite IH.
Qed.

Lemma dict_keys_set_In d k k' v :
  In k' (dict_keys (dict_set d k v)) <-> k' = k \/ In k' (dict_keys d).
Proof.
  induction d as [|[k0 v0] d IH]; simpl.
  - intuition.
  - destruct (String.eqb_spec k0 k) as [->|Hk0]; simpl.
    + intuition.
    + rewrite IH. intuition.
Qed.

Lemma dict_set_NoDup d k v :
  List.NoDup (dict_keys d) -> List.NoDup (dict_keys (dict_set d k v)).
Proof.
  induction d as [|[k0 v0] d IH]; simpl; intros Hnd.
  - apply List.NoDup_cons_iff. split; [intros [] | constructor].
  - apply List.NoDup_cons_iff in Hnd as [Hout Hnd].
    destruct (String.eqb_spec k0 k) as [->|Hk0]; simpl.
    + apply List.NoDup_cons_iff. split; assumption.
    + apply List.NoDup_cons_iff. split; [|now apply IH].
      rewrite dict_keys_set_In. intros [->|Hin]; [now apply Hk0 | now apply Hout].
Qed.

Lemma dict_set_set d k v1 v2 :
  dict_set (dict_set d k v1) k v2 = dict_set d k v2.
Proof.
  induction d as [|[k0 v0] d IH]; simpl.
  - now rewrite String.eqb_refl.
  - destruct (String.eqb k0 k) eqn:Hk; simpl; rewrite Hk; [reflexivity|].
    now rewrite IH.
Qed.

Lemma dict_set_same d k v : dict_get d k = Some v -> dict_set d k v = d.
Proof.
  induction d as [|[k0 v0] d IH]; simpl; [discriminate|].
  destruct (String.eqb k0 k) eqn:Hk.
  - now intros [= ->].
  - intros Hget. now rewrite IH.
Qed.

End MoreDictFacts.

(** ** More on the generator factory *)

Lemma create_is_Ok (generators : registry) (f : string) :
  is_Ok (create generators f) = true <->
  In (lower f) (get_available_formats generators).
Proof.
  unfold create, get_available_formats.
  destruct (dict_get generators (lower f)) as [G|] eqn:Hget; simpl.
  - split; [intros _ | reflexivity]. now apply dict_get_Some_In in Hget.
  - apply dict_get_None in Hget. split; [discriminate | contradiction].
Qed.

(** X1.  [create] succeeds exactly for the identifiers whose lower-cased
    form is a key of the registry, and what it returns is the instance of
    the class bound to that key. *)
Theorem create_ok_iff_registered (generators : registry) (f : string) :
  (is_Ok (create generators f) = true <->
     In (lower f) (get_available_formats generators)) /\
  (forall g, create generators f = Ok g <->
     exists G, dict_get generators (lower f) = Some G /\ g = instantiate G).
Proof.
  split; [apply create_is_Ok|]. unfold create.
  - intros g. destruct (dict_get generators (lower f)) as [G|]; split.
    + intros [= <-]. now exists G.
    + now intros (G' & [= <-] & ->).
    + discriminate.
    + now intros (G' & [=] & _).
Qed.

(** X2.  The lookup of [create] is case-insensitive on ASCII identifiers:
    two spellings with the same lower-cased form yield the same generator,
    and so do an identifier and its lower-cased form. *)
Theorem create_case_insensitive (generators : registry) (f1 f2 : string)
    (g : DocumentGenerator) :
  lower f1 = lower f2 ->
  (create generators f1 = Ok g <-> create generators f2 = Ok g) /\
  (create generators (lower f1) = Ok g <-> create generators f1 = Ok g).
Proof.
  intros Heq. unfold create. rewrite lower_idempotent, <- Heq.
  destruct (dict_get generators (lower f1)); split; split;
    intros H; try discriminate H; exact H.
Qed.

Lemma create_case_insensitive_witness :
  create builtin_generators "PDF" = Ok (PDFDocumentGenerator true) <->
  create builtin_generators "Pdf" = Ok (PDFDocumentGenerator true).
Proof.
  exact (proj1 (create_case_insensitive builtin_generators "PDF" "Pdf"
                  (PDFDocumentGenerator true) eq_refl)).
Defined.



(** The two invariants of the keys of a registry. *)
Lemma register_keys_invariant generators f G :
  List.NoDup (get_available_formats generators) /\
  Forall (fun k => lower k = k) (get_available_formats generators) ->
  List.NoDup (get_available_formats (register generators f G)) /\
  Forall (fun k => lower k = k) (get_available_formats (register generators f G)).
Proof.
  unfold get_available_formats, register. intros [Hnd Hlow]. split.
  - now apply dict_set_NoDup.
  - rewrite List.Forall_forall in *. intros k Hin.
    apply dict_keys_set_In in Hin as [->|Hin];
      [apply lower_idempotent | now apply Hlow].
Qed.

Lemma fold_register_keys_invariant calls generators :
  List.NoDup (get_available_formats generators) /\
  Forall (fun k => lower k = k) (get_available_formats generators) ->
  let final :=
    fold_left (fun g c => register g (fst c) (snd c)) calls generators in
  List.NoDup (get_available_formats final) /\
  Forall (fun k => lower k = k) (get_available_formats final).
Proof.
  revert generators. induction calls as [|[f G] calls IH]; simpl; intros g Hinv.
  - exact Hinv.
  - apply IH. now apply register_keys_invariant.
Qed.

Lemma registry_of_keys_invariant (calls : list (string * DocumentGenerator)) :
  List.NoDup (get_available_formats (registry_of calls)) /\
  Forall (fun k => lower k = k) (get_available_formats (registry_of calls)).
Proof.
  apply (fold_register_keys_invariant calls []).
  split; constructor.
Qed.

(** X4.  Whatever the sequence of [register] calls, the registry never
    holds an identifier twice, and every identifier it holds is in lower
    case: the list of available formats is a set of lower-case names. *)
Theorem registry_keys_unique_and_lower (calls : list (string * DocumentGenerator)) :
  List.NoDup (get_available_formats (registry_of calls)) /\
  Forall (fun k => lower k = k) (get_available_formats (registry_of calls)).
Proof. exact (registry_of_keys_invariant calls). Qed.

(** X5.  Every format listed by [get_available_formats] can be created:
    in a registry built by [register] calls, [create] succeeds on each
    listed identifier. *)
Theorem listed_formats_can_be_created (calls : list (string * DocumentGenerator))
    (k : string) :
  In k (get_available_formats (registry_of calls)) ->
  is_Ok (create (registry_of calls) k) = true.
Proof.
  intros Hin.
  destruct (registry_of_keys_invariant calls) as [_ Hlow].
  rewrite List.Forall_forall in Hlow.
  apply create_is_Ok. now rewrite (Hlow k Hin).
Qed.

Lemma listed_formats_can_be_created_witness :
  is_Ok (create (registry_of [("PDF", PDFDocumentGenerator true);
                              ("Odt", ODTDocumentGenerator)]) "odt") = true.
Proof.
  apply (listed_formats_can_be_created
           [("PDF", PDFDocumentGenerator true); ("Odt", ODTDocumentGenerator)]).
  simpl. tauto.
Defined.

(** X6.  Two registrations under spellings of one identifier amount to the
    second alone: the whole registry, order of the keys included, is the
    one obtained by registering the second class only. *)
Theorem register_twice_is_last (generators : registry) (f1 f2 : string)
    (G1 G2 : DocumentGenerator) :
  lower f1 = lower f2 ->
  register (register generators f1 G1) f2 G2 = register generators f2 G2.
Proof.
  intros Heq. unfold register. rewrite <- Heq. apply dict_set_set.
Qed.

Lemma register_twice_is_last_witness :
  register (register builtin_generators "txt" ODTDocumentGenerator)
           "TXT" DOCXDocumentGenerator
  = register builtin_generators "TXT" DOCXDocumentGenerator.
Proof.
  apply register_twice_is_last. reflexivity.
Defined.

(** ** More on the generators *)

(** X8.  When every library call succeeds, the ODT generator returns the
    bytes that [pack] produced, read back from the scratch file, with the
    stream rewound; its effects are, in order: scratch file created,
    template opened, scratch file written, read and removed.  When it
    raises, the exception is the one raised by a library call, unchanged. *)
Theorem odt_generar_outcome (carpeta plantilla : string) (ctx : context)
    (E : env) (fs : filesystem) :
  let path := os_path_join (root_path E) [carpeta; plantilla +:+ ".odt"] in
  let o := generar ODTDocumentGenerator carpeta plantilla ctx E fs in
  (forall media temp_path template rendered packed,
     url_for E "static" "media" false = Ok media ->
     NamedTemporaryFile E fs ".odt" = Ok temp_path ->
     ODTTemplate E path = Ok template ->
     odt_render E media template ctx = Ok rendered ->
     odt_pack E rendered = Ok packed ->
     o = Outcome (Ok {| getvalue := packed; tell := 0 |})
                 (delete temp_path fs)
                 [ FileCreated temp_path; TemplateLookup path;
                   FileWritten temp_path; FileRead temp_path;
                   FileRemoved temp_path ]) /\
  (forall e, returned o = Err e ->
     url_for E "static" "media" false = Err e \/
     NamedTemporaryFile E fs ".odt" = Err e \/
     ODTTemplate E path = Err e \/
     (exists media template, odt_render E media template ctx = Err e) \/
     (exists rendered, odt_pack E rendered = Err e)).
Proof.
  cbv zeta. split.
  - intros media temp_path template rendered packed Hurl Htmp Htpl Hren Hpack.
    run_generator. rewrite Hurl. simpl. rewrite Htmp. simpl.
    unfold os_path_join in Htpl. simpl in Htpl. rewrite Htpl. simpl.
    rewrite Hren. simpl. rewrite Hpack. simpl.
    repeat (rewrite lookup_insert_eq; simpl).
    now rewrite !delete_insert_eq.
  - intros e. run_generator. repeat run_step; intros [= <-]; eauto 8.
Qed.

Lemma odt_generar_outcome_witness :
  generar ODTDocumentGenerator "certificado" "certificado_pdf" [] env_ok ∅
  = Outcome (Ok {| getvalue := [Byte.x50; Byte.x4b; Byte.x03; Byte.x04];
                   tell := 0 |})
            (delete "/tmp/tmpk3x9.odt" ∅)
            [ FileCreated "/tmp/tmpk3x9.odt";
              TemplateLookup "/srv/app/certificado/certificado_pdf.odt";
              FileWritten "/tmp/tmpk3x9.odt"; FileRead "/tmp/tmpk3x9.odt";
              FileRemoved "/tmp/tmpk3x9.odt" ].
Proof.
  exact (proj1 (odt_generar_outcome "certificado" "certificado_pdf" [] env_ok ∅)
           "/static/media" "/tmp/tmpk3x9.odt" [Byte.x01] [Byte.x01]
           [Byte.x50; Byte.x4b; Byte.x03; Byte.x04]
           eq_refl eq_refl eq_refl eq_refl eq_refl).
Defined.

(** X9.  Inside an application context, when the scratch file can be
    created and the loading of the template, the rendering and the saving
    all succeed, the DOCX generator returns the bytes that [save] produced,
    read back from the scratch file, with the stream rewound.  The template
    path is handed to [DocxTemplate] first; the scratch file is then
    created, written, read and removed, in that order. *)
Theorem docx_generar_outcome (carpeta plantilla : string) (ctx : context)
    (E : env) (fs : filesystem) :
  let path := os_path_join (root_path E) [carpeta; plantilla +:+ ".docx"] in
  forall temp_path doc rendered saved,
    NamedTemporaryFile E fs ".docx" = Ok temp_path ->
    docx_open E path = Ok doc ->
    docx_render E doc ctx = Ok rendered ->
    docx_save E rendered = Ok saved ->
    generar DOCXDocumentGenerator carpeta plantilla ctx E fs =
      Outcome (Ok {| getvalue := saved; tell := 0 |})
              (delete temp_path fs)
              [ TemplateLookup path; FileCreated temp_path;
                FileWritten temp_path; FileRead temp_path;
                FileRemoved temp_path ].
Proof.
  cbv zeta. intros temp_path doc rendered saved Htmp Hdoc Hren Hsave.
  run_generator. rewrite Htmp. simpl.
  unfold os_path_join in Hdoc. simpl in Hdoc. rewrite Hdoc. simpl.
  rewrite Hren. simpl. rewrite Hsave. simpl.
  repeat (rewrite lookup_insert_eq; simpl).
  now rewrite !delete_insert_eq.
Qed.

Lemma docx_generar_outcome_witness :
  returned (generar DOCXDocumentGenerator "certificado" "certificado_pdf" []
              env_ok ∅)
  = Ok {| getvalue := [Byte.x50; Byte.x4b; Byte.x03; Byte.x04]; tell := 0 |}.
Proof.
  rewrite (docx_generar_outcome "certificado" "certificado_pdf" [] env_ok ∅
             "/tmp/tmpk3x9.docx" [Byte.x02] [Byte.x02]
             [Byte.x50; Byte.x4b; Byte.x03; Byte.x04]
             eq_refl eq_refl eq_refl eq_refl).
  reflexivity.
Defined.

(** X10.  With a scratch name that was not in use, which is what
    [NamedTemporaryFile] picks, a successful call of the ODT or DOCX
    generator leaves the disk exactly as it found it. *)
Theorem successful_run_restores_disk (g : DocumentGenerator)
    (carpeta plantilla : string) (ctx : context) (E : env) (fs : filesystem) :
  g = ODTDocumentGenerator \/ g = DOCXDocumentGenerator ->
  let o := generar g carpeta plantilla ctx E fs in
  (forall temp_path, In (FileCreated temp_path) (trace o) ->
                     fs !! temp_path = None) ->
  is_Ok (returned o) = true ->
  disk o = fs.
Proof.
  intros Hg o Hfresh Hok.
  destruct (scratch_file_created_on_success g carpeta plantilla ctx E fs Hg Hok)
    as [temp_path Hin].
  assert (Hfate : if is_Ok (returned o) then disk o = delete temp_path fs
                  else exists content, disk o = <[temp_path := content]> fs).
  { subst o. destruct Hg as [->| ->];
      [now apply odt_scratch_file | now apply docx_scratch_file]. }
  rewrite Hok in Hfate. rewrite Hfate. apply delete_id. now apply Hfresh.
Qed.

Lemma successful_run_restores_disk_witness :
  disk (generar DOCXDocumentGenerator "certificado" "certificado_pdf" []
          env_ok {[ "/srv/app/certificado/certificado_pdf.docx" := [Byte.x02] ]})
  = {[ "/srv/app/certificado/certificado_pdf.docx" := [Byte.x02] ]}.
Proof.
  apply (successful_run_restores_disk DOCXDocumentGenerator).
  - right. reflexivity.
  - intros temp_path Hin. vm_compute in Hin.
    destruct Hin as [[=]|[[= <-]|[[=]|[[=]|[[=]|[]]]]]]. reflexivity.
  - reflexivity.
Defined.

(** X11.  A template that cannot be opened is found out only after the
    scratch file exists: the ODT generator enters [ODTTemplate], and the
    DOCX generator renders, after [NamedTemporaryFile]; so both raise the
    library's exception and leave the empty scratch file on disk. *)
Theorem template_open_failure (carpeta plantilla : string) (ctx : context)
    (E : env) (fs : filesystem) (e : exn) :
  (forall temp_path,
     NamedTemporaryFile E fs ".docx" = Ok temp_path ->
     docx_open E (os_path_join (root_path E) [carpeta; plantilla +:+ ".docx"])
       = Err e ->
     generar DOCXDocumentGenerator carpeta plantilla ctx E fs =
       Outcome (Err e) (<[temp_path := []]> fs)
         [TemplateLookup
            (os_path_join (root_path E) [carpeta; plantilla +:+ ".docx"]);
          FileCreated temp_path]) /\
  (forall media temp_path,
     url_for E "static" "media" false = Ok media ->
     NamedTemporaryFile E fs ".odt" = Ok temp_path ->
     ODTTemplate E (os_path_join (root_path E) [carpeta; plantilla +:+ ".odt"])
       = Err e ->
     generar ODTDocumentGenerator carpeta plantilla ctx E fs =
       Outcome (Err e) (<[temp_path := []]> fs)
         [FileCreated temp_path;
          TemplateLookup
            (os_path_join (root_path E) [carpeta; plantilla +:+ ".odt"])]).
Proof.
  split.
  - intros temp_path Htmp Hdoc. run_generator. rewrite Htmp. simpl.
    unfold os_path_join in Hdoc. simpl in Hdoc. now rewrite Hdoc.
  - intros media temp_path Hurl Htmp Htpl. run_generator.
    rewrite Hurl. simpl. rewrite Htmp. simpl.
    unfold os_path_join in Htpl. simpl in Htpl. now rewrite Htpl.
Qed.

Lemma template_open_failure_witness :
  disk (generar DOCXDocumentGenerator "certificado" "certificado_pdf" []
          env_sin_plantillas ∅) = <["/tmp/tmpk3x9.docx" := []]> ∅ /\
  disk (generar ODTDocumentGenerator "certificado" "certificado_pdf" []
          env_sin_plantillas ∅) = <["/tmp/tmpk3x9.odt" := []]> ∅.
Proof.
  destruct (template_open_failure "certificado" "certificado_pdf" []
              env_sin_plantillas ∅
              (Raise FileNotFoundError "No such file or directory"))
    as [Hdocx Hodt].
  split.
  - rewrite (Hdocx "/tmp/tmpk3x9.docx"); reflexivity.
  - rewrite (Hodt "/static/media" "/tmp/tmpk3x9.odt"); reflexivity.
Defined.

(** [os.path.join] drops what precedes an absolute component. *)
Lemma os_path_join_absolute (root carpeta : string) (rest : list string) :
  startswith_sep carpeta = true ->
  os_path_join root (carpeta :: rest) = os_path_join carpeta rest.
Proof.
  intros Habs. unfold os_path_join. simpl.
  unfold path_join_step at 2. now rewrite Habs.
Qed.

(** X12.  An absolute folder escapes the application root: when the folder
    starts with the separator, the DOCX and ODT generators look for the
    template under that folder, and [root_path] plays no part; an absolute
    template name in turn replaces root and folder alike. *)
Theorem absolute_folder_escapes_root (carpeta plantilla : string)
    (ctx : context) (E : env) (fs : filesystem) :
  (startswith_sep carpeta = true ->
   template_lookups
     (trace (generar DOCXDocumentGenerator carpeta plantilla ctx E fs)) =
     [os_path_join carpeta [plantilla +:+ ".docx"]] /\
   forall media temp_path,
     url_for E "static" "media" false = Ok media ->
     NamedTemporaryFile E fs ".odt" = Ok temp_path ->
     template_lookups
       (trace (generar ODTDocumentGenerator carpeta plantilla ctx E fs)) =
       [os_path_join carpeta [plantilla +:+ ".odt"]]) /\
  (startswith_sep plantilla = true ->
   template_lookups
     (trace (generar DOCXDocumentGenerator carpeta plantilla ctx E fs)) =
     [plantilla +:+ ".docx"]).
Proof.
  split.
  - intros Habs. split.
    + rewrite <- (os_path_join_absolute (root_path E)) by assumption.
      run_generator. repeat run_step; reflexivity.
    + intros media temp_path Hurl Htmp.
      rewrite <- (os_path_join_absolute (root_path E)) by assumption.
      run_generator. rewrite Hurl. simpl. rewrite Htmp. simpl.
      repeat run_step; reflexivity.
  - intros Habs.
    assert (Hpath : os_path_join (root_path E) [carpeta; plantilla +:+ ".docx"]
                    = plantilla +:+ ".docx").
    { unfold os_path_join. simpl. unfold path_join_step at 1.
      destruct plantilla as [|c p]; [discriminate|].
      change (String c p +:+ ".docx") with (String c (p +:+ ".docx")).
      unfold startswith_sep in *. destruct c as [[] [] [] [] [] [] [] []];
        try discriminate Habs; reflexivity. }
    rewrite <- Hpath. run_generator. repeat run_step; reflexivity.
Qed.

Lemma absolute_folder_escapes_root_witness :
  template_lookups
    (trace (generar DOCXDocumentGenerator "/etc" "passwd" [] env_ok ∅)) =
    ["/etc/passwd.docx"].
Proof.
  exact (proj1 (proj1 (absolute_folder_escapes_root "/etc" "passwd" [] env_ok ∅)
                  eq_refl)).
Defined.

(** ** More on the student service *)

(** X13.  Context assembly reads and never writes: the disk is untouched
    and no event happens.  It succeeds exactly when the student has a
    specialty and that specialty a faculty, and a context it returns has
    the five keys [alumno], [especialidad], [facultad], [universidad] and
    [fecha], in that order. *)
Theorem contexto_alumno_shape (alumno : Alumno) (E : env) (fs : filesystem) :
  let o := _obtener_contexto_alumno alumno E fs in
  disk o = fs /\ trace o = [] /\
  (is_Ok (returned o) = true <->
     exists e f, alumno_especialidad alumno = Some e /\
                 especialidad_facultad e = Some f) /\
  (forall ctx, returned o = Ok ctx ->
     dict_keys ctx =
       ["alumno"; "especialidad"; "facultad"; "universidad"; "fecha"]).
Proof.
  unfold _obtener_contexto_alumno, _obtener_fecha_actual, bind, call, ret.
  destruct (alumno_especialidad alumno) as [e|]; simpl.
  - destruct (especialidad_facultad e) as [f|] eqn:He; simpl.
    + repeat split; try (intros ctx [= <-]; reflexivity).
      intros _. now exists e, f.
    + repeat split; try discriminate.
      intros (e' & f' & [= <-] & Hf). congruence.
  - repeat split; try discriminate. now intros (e' & f' & [=] & _).
Qed.

(** X14.  When the repository finds no student, or raises, the
    certificate service stops there: it returns [None], or lets the
    exception through, without looking at the format and without any
    effect; an unsupported format goes unreported. *)
Theorem certificado_sin_alumno
    (obtener : string -> result objeto) (id : Z) (tipo : string)
    (E : env) (fs : filesystem) :
  (buscar_por_id E id = Ok None ->
   generar_certificado_alumno_regular obtener id tipo E fs =
     Outcome (Ok None) fs []) /\
  (forall e, buscar_por_id E id = Err e ->
   generar_certificado_alumno_regular obtener id tipo E fs =
     Outcome (Err e) fs []).
Proof.
  unfold generar_certificado_alumno_regular, bind, call, ret.
  split; [intros -> | intros e ->]; reflexivity.
Qed.

Lemma certificado_sin_alumno_witness :
  generar_certificado_alumno_regular
    (devuelve_instancia (obtener_tipo_documento builtin_generators))
    7 "xyz" env_ok ∅
  = Outcome (Ok None) ∅ [].
Proof.
  apply (proj1 (certificado_sin_alumno
                  (devuelve_instancia (obtener_tipo_documento builtin_generators))
                  7 "xyz" env_ok ∅)).
  reflexivity.
Defined.

(** X15.  The context is assembled before the format is looked up.  For a
    student found without specialty, or whose specialty has no faculty, the
    service raises [AttributeError] whatever the format and whatever the
    lookup function would do; for a student with specialty and faculty, an
    exception raised by the lookup function goes through unchanged; in
    every case without any effect. *)
Theorem certificado_order_of_failures (obtener : string -> result objeto)
    (id : Z) (tipo : string) (alumno : Alumno) (E : env) (fs : filesystem) :
  buscar_por_id E id = Ok (Some alumno) ->
  let o := generar_certificado_alumno_regular obtener id tipo E fs in
  (alumno_especialidad alumno = None ->
   o = Outcome
         (Err (Raise AttributeError "'NoneType' object has no attribute 'facultad'"))
         fs []) /\
  (forall e, alumno_especialidad alumno = Some e ->
   especialidad_facultad e = None ->
   o = Outcome
         (Err (Raise AttributeError "'NoneType' object has no attribute 'universidad'"))
         fs []) /\
  (forall e f x, alumno_especialidad alumno = Some e ->
   especialidad_facultad e = Some f ->
   obtener tipo = Err x ->
   o = Outcome (Err x) fs []).
Proof.
  intros Hfound.
  unfold generar_certificado_alumno_regular, _obtener_contexto_alumno,
    _obtener_fecha_actual, bind, call, ret.
  rewrite Hfound. cbv zeta. split; [|split].
  - intros ->. reflexivity.
  - intros e -> He. simpl. rewrite He. reflexivity.
  - intros e f x -> He Hx. simpl. rewrite He. simpl. rewrite Hx. reflexivity.
Qed.

Lemma certificado_order_of_failures_witness :
  returned (generar_certificado_alumno_regular
              (fun _ => Err (Raise ValueError "Formato 'xyz' no soportado."))
              2 "xyz" env_alumno_sin_facultad ∅)
  = Err (Raise AttributeError "'NoneType' object has no attribute 'universidad'").
Proof.
  destruct (certificado_order_of_failures
              (fun _ => Err (Raise ValueError "Formato 'xyz' no soportado."))
              2 "xyz" alumno_sin_facultad env_alumno_sin_facultad ∅ eq_refl)
    as (_ & Hfac & _).
  rewrite (Hfac _ eq_refl eq_refl). reflexivity.
Defined.

(** X16.  For a student found with specialty and faculty and a format that
    the lookup resolves, the certificate is what the resolved generator
    makes of the template [certificado_pdf] of folder [certificado], the
    same names for every format, with the student's context: same disk,
    same events, and the generator's result or exception. *)
Theorem certificado_is_generar (obtener : string -> result objeto)
    (id : Z) (tipo : string) (alumno : Alumno) (e : Especialidad)
    (f : Facultad) (documento : DocumentGenerator) (E : env) (fs : filesystem) :
  buscar_por_id E id = Ok (Some alumno) ->
  alumno_especialidad alumno = Some e ->
  especialidad_facultad e = Some f ->
  obtener tipo = Ok (Some documento) ->
  let ctx := [ ("alumno", PyAlumno alumno);
               ("especialidad", PyEspecialidad e);
               ("facultad", PyFacultad f);
               ("universidad", py_universidad (facultad_universidad f));
               ("fecha", PyStr (strftime E (now E) "%d de %B de %Y")) ] in
  let o := generar documento "certificado" "certificado_pdf" ctx E fs in
  generar_certificado_alumno_regular obtener id tipo E fs =
    Outcome (match returned o with
             | Ok doc => Ok (Some doc)
             | Err x => Err x
             end)
            (disk o) (trace o).
Proof.
  intros Hfound He Hf Hdoc.
  unfold generar_certificado_alumno_regular, _obtener_contexto_alumno,
    _obtener_fecha_actual, llamar_generar, bind, call, ret, truthy.
  rewrite Hfound. cbv zeta. rewrite He. simpl. rewrite Hf. simpl.
  rewrite Hdoc. simpl.
  match goal with
  | |- context [generar documento ?c ?p ?x E fs] =>
      destruct (generar documento c p x E fs) as [[doc|x'] fs' tr]
  end; simpl; [now rewrite app_nil_r | reflexivity].
Qed.

Lemma certificado_is_generar_witness :
  template_lookups
    (trace (generar_certificado_alumno_regular
              (obtener_o_none builtin_generators) 1 "DOCX" env_ok ∅))
  = ["/srv/app/certificado/certificado_pdf.docx"].
Proof.
  rewrite (certificado_is_generar (obtener_o_none builtin_generators)
             1 "DOCX" alumno_completo especialidad_matematica
             facultad_ingenieria DOCXDocumentGenerator env_ok ∅
             eq_refl eq_refl eq_refl eq_refl).
  reflexivity.
Defined.

(** ** The generic service *)

Section BaseServiceFacts.

Context {V : Type}.
Implicit Types (existente nuevo : @entidad V) (a : string) (v : V).

Lemma actualizar_campos_other existente nuevo a :
  es_campo_copiable a = false \/ ~ In a (dict_keys nuevo) ->
  dict_get (actualizar_campos existente nuevo) a = dict_get existente a.
Proof.
  unfold actualizar_campos. revert existente.
  induction nuevo as [|[k v] nuevo IH]; intros existente Ha; simpl.
  - reflexivity.
  - rewrite IH by (simpl in Ha; tauto).
    destruct (es_campo_copiable k) eqn:Hk; [|reflexivity].
    apply dict_get_set_other. intros ->.
    destruct Ha as [Ha|Ha]; [congruence | apply Ha; simpl; tauto].
Qed.

Lemma actualizar_campos_copied existente nuevo a v :
  List.NoDup (dict_keys nuevo) ->
  es_campo_copiable a = true ->
  dict_get nuevo a = Some v ->
  dict_get (actualizar_campos existente nuevo) a = Some v.
Proof.
  unfold actualizar_campos. revert existente.
  induction nuevo as [|[k v0] nuevo IH]; intros existente Hnd Ha Hget;
    simpl in *; [discriminate|].
  apply List.NoDup_cons_iff in Hnd as [Hout Hnd].
  destruct (String.eqb_spec k a) as [->|Hne].
  - injection Hget as ->. rewrite Ha.
    change (dict_get (actualizar_campos (dict_set existente a v) nuevo) a = Some v).
    rewrite actualizar_campos_other by tauto. apply dict_get_set.
  - now apply IH.
Qed.

Lemma dict_get_In_NoDup (d : dict V) a v :
  List.NoDup (dict_keys d) -> In (a, v) d -> dict_get d a = Some v.
Proof.
  induction d as [|[k v0] d IH]; simpl; intros Hnd Hin; [contradiction|].
  apply List.NoDup_cons_iff in Hnd as [Hout Hnd].
  destruct Hin as [[= -> ->]|Hin].
  - now rewrite String.eqb_refl.
  - destruct (String.eqb_spec k a) as [->|Hne]; [|now apply IH].
    exfalso. apply Hout. change a with (fst (a, v)). now apply in_map.
Qed.

End BaseServiceFacts.

(** X17.  The default [actualizar_campos] never overwrites [id],
    [_sa_instance_state] or an attribute whose name starts with an
    underscore, and leaves alone the attributes that the incoming entity
    does not have. *)
Theorem actualizar_campos_protege {V : Type} (existente nuevo : @entidad V)
    (a : string) :
  a = "id" \/ a = "_sa_instance_state" \/ startswith_underscore a = true \/
  ~ In a (dict_keys nuevo) ->
  dict_get (actualizar_campos existente nuevo) a = dict_get existente a.
Proof.
  intros Ha. apply actualizar_campos_other.
  destruct Ha as [->|[->|[Ha|Ha]]]; auto.
  left. unfold es_campo_copiable. rewrite Ha. apply andb_false_r.
Qed.

Lemma actualizar_campos_protege_witness :
  dict_get (actualizar_campos fila_existente entidad_nueva) "id" = Some "1".
Proof.
  rewrite (actualizar_campos_protege fila_existente entidad_nueva "id");
    [reflexivity | left; reflexivity].
Defined.

(** X18.  The default [actualizar_campos] copies every other attribute of
    the incoming entity: after the call the existing entity holds the
    incoming value of each attribute that is not [id], not
    [_sa_instance_state] and does not start with an underscore. *)
Theorem actualizar_campos_copia {V : Type} (existente nuevo : @entidad V)
    (a : string) (v : V) :
  List.NoDup (dict_keys nuevo) ->
  a <> "id" -> a <> "_sa_instance_state" -> startswith_underscore a = false ->
  dict_get nuevo a = Some v ->
  dict_get (actualizar_campos existente nuevo) a = Some v.
Proof.
  intros Hnd Hid Hsa Hund Hget. apply actualizar_campos_copied; try assumption.
  unfold es_campo_copiable. rewrite Hund. simpl.
  destruct (String.eqb_spec a "_sa_instance_state"); [contradiction|].
  destruct (String.eqb_spec a "id"); [contradiction | reflexivity].
Qed.

Lemma actualizar_campos_copia_witness :
  dict_get (actualizar_campos fila_existente entidad_nueva) "nombre" = Some "Eva".
Proof.
  apply (actualizar_campos_copia fila_existente entidad_nueva "nombre" "Eva");
    try discriminate; try reflexivity.
  repeat (apply List.NoDup_cons_iff; split;
          [simpl; intuition discriminate|]).
  constructor.
Defined.

(** X19.  Applying the default [actualizar_campos] a second time with the
    same incoming entity changes nothing. *)
Theorem actualizar_campos_idempotente {V : Type} (existente nuevo : @entidad V) :
  List.NoDup (dict_keys nuevo) ->
  actualizar_campos (actualizar_campos existente nuevo) nuevo =
  actualizar_campos existente nuevo.
Proof.
  intros Hnd.
  assert (Hfix : forall (items : list (string * V)) (d : @entidad V),
             (forall k v, In (k, v) items -> es_campo_copiable k = true ->
                          dict_get d k = Some v) ->
             fold_left actualizar_campos_item items d = d).
  { induction items as [|[k v] items IH]; intros d Hd; cbn [fold_left];
      [reflexivity|].
    assert (Hstep : actualizar_campos_item d (k, v) = d).
    { unfold actualizar_campos_item.
      destruct (es_campo_copiable k) eqn:Hk; [|reflexivity].
      apply dict_set_same. apply Hd; [simpl; tauto | exact Hk]. }
    rewrite Hstep. apply IH. intros k' v' Hin. apply Hd. simpl. tauto. }
  apply Hfix. intros k v Hin Hk.
  apply actualizar_campos_copied; try assumption.
  now apply dict_get_In_NoDup.
Qed.

Lemma actualizar_campos_idempotente_witness :
  actualizar_campos (actualizar_campos fila_existente entidad_nueva) entidad_nueva
  = [ ("_sa_instance_state", "persistent"); ("id", "1"); ("nombre", "Eva");
      ("apellido", "Paz") ].
Proof.
  rewrite (actualizar_campos_idempotente fila_existente entidad_nueva).
  - reflexivity.
  - repeat (apply List.NoDup_cons_iff; split;
            [simpl; intuition discriminate|]).
    constructor.
Defined.

(** X20.  [BaseService.actualizar] returns [None] exactly when the
    repository finds no row; when it returns an entity, that entity is the
    stored row after [actualizar_campos], so with the default
    [actualizar_campos] it keeps the [id] of the stored row, whatever [id]
    the incoming entity carries. *)
Theorem BaseService_actualizar_conserva_id {V : Type} (db : @base_datos V)
    (id : Z) (entity : @entidad V) :
  (BaseService_actualizar db actualizar_campos id entity = Ok None <->
     fila_por_id db id = Ok None) /\
  (forall actualizado,
     BaseService_actualizar db actualizar_campos id entity = Ok (Some actualizado) ->
     exists existente,
       fila_por_id db id = Ok (Some existente) /\
       actualizado = actualizar_campos existente entity /\
       dict_get actualizado "id" = dict_get existente "id").
Proof.
  unfold BaseService_actualizar, BaseRepository_buscar_por_id,
    BaseRepository_actualizar, result_bind.
  destruct (fila_por_id db id) as [[existente|]|e].
  - destruct (error_de_commit db (actualizar_campos existente entity)).
    + split; [split; discriminate | discriminate].
    + split; [split; discriminate|].
      intros actualizado [= <-]. exists existente.
      split; [reflexivity|]. split; [reflexivity|].
      apply actualizar_campos_other. left. reflexivity.
  - split; [tauto | discriminate].
  - split; [split; discriminate | discriminate].
Qed.

Lemma BaseService_actualizar_conserva_id_witness :
  exists actualizado,
    BaseService_actualizar db_una_fila actualizar_campos 1 entidad_nueva
      = Ok (Some actualizado) /\
    dict_get actualizado "id" = Some "1".
Proof.
  eexists. split; [reflexivity|].
  destruct (proj2 (BaseService_actualizar_conserva_id db_una_fila 1 entidad_nueva)
              _ eq_refl) as (existente & Hfila & _ & Hid).
  injection Hfila as <-. exact Hid.
Defined.

(** ** More on the PDF generator *)

(** X22.  With the backend available and every library call succeeding,
    the PDF generator returns the bytes that [write_pdf] produced from the
    rendered HTML and the static base URL, with the stream at its start;
    when it raises, the exception is the one raised by a library call,
    unchanged. *)
Theorem pdf_generar_outcome (carpeta plantilla : string) (ctx : context)
    (E : env) (fs : filesystem) :
  let name := carpeta +:+ "/" +:+ plantilla +:+ ".html" in
  let o := generar (PDFDocumentGenerator true) carpeta plantilla ctx E fs in
  (forall html_string base_url bytes_data,
     render_template E name ctx = Ok html_string ->
     url_for E "static" "" true = Ok base_url ->
     write_pdf E html_string base_url = Ok bytes_data ->
     o = Outcome (Ok {| getvalue := bytes_data; tell := 0 |}) fs
                 [TemplateLookup name]) /\
  (forall e, returned o = Err e ->
     render_template E name ctx = Err e \/
     url_for E "static" "" true = Err e \/
     exists html_string base_url, write_pdf E html_string base_url = Err e).
Proof.
  cbv zeta. split.
  - intros html_string base_url bytes_data Hren Hurl Hpdf.
    run_generator. rewrite Hren. simpl. rewrite Hurl. simpl.
    now rewrite Hpdf.
  - intros e. run_generator. repeat run_step; intros [= <-]; eauto 6.
Qed.

Lemma pdf_generar_outcome_witness :
  generar (PDFDocumentGenerator true) "certificado" "certificado_pdf" []
    env_ok ∅
  = Outcome (Ok {| getvalue := [Byte.x25; Byte.x50; Byte.x44; Byte.x46];
                   tell := 0 |})
            ∅ [TemplateLookup "certificado/certificado_pdf.html"].
Proof.
  exact (proj1 (pdf_generar_outcome "certificado" "certificado_pdf" [] env_ok ∅)
           "<html></html>" "/static/"
           [Byte.x25; Byte.x50; Byte.x44; Byte.x46] eq_refl eq_refl eq_refl).
Defined.
